(** * Marketing dashboard: aggregation and chart geometry

    A shallow embedding of the rollup code of the four dashboard views
    (demographic, device, region, weekly) and of the geometry code of the
    [HeatMap] and [LineChart] components, with the properties the
    specification states about them.

    Modelling conventions.

    - A JavaScript [number] is the type [number] below: an exact rational,
      the two infinities, or [NaN].  Arithmetic on finite values is exact
      (the rounding of IEEE-754 doubles is idealised away, so a statement
      "within floating-point tolerance" becomes an equality of rationals),
      and the special values follow IEEE-754: [0/0] is [NaN], [x/0] is an
      infinity, [NaN] propagates and compares false.  The two zeros are
      identified.
    - An object literal used as a dictionary is a finite map over its own
      properties.  Where the code only reads and writes by key
      ([deviceMap], [uaeCoordinates]) it is a [gmap]; where the code
      enumerates it with [Object.entries] or [Object.values] and the order
      feeds a sort, it is an association list in insertion order ([Obj]).
      Keys are taken to differ from the property names every object
      inherits from [Object.prototype].
    - [forEach] loops are left folds; an in-place mutation of a shared array
      is a state transformer on that array. *)

From Stdlib Require Import QArith Qminmax Lqa Lia ZArith List Sorting Permutation.
From Stdlib Require Import Ascii String.
From stdpp Require Import gmap strings.
Import ListNotations.

Local Open Scope Q_scope.

(** ** JavaScript numbers *)

Inductive number : Type :=
| Fin (q : Q)
| PosInf
| NegInf
| NaN.

Module Num.

(** Sign of a rational as a comparison with zero. *)
Definition sgn (q : Q) : comparison := 0 ?= q.

Definition neg (a : number) : number :=
  match a with
  | Fin q => Fin (- q)
  | PosInf => NegInf
  | NegInf => PosInf
  | NaN => NaN
  end.

(** [a + b] *)
Definition add (a b : number) : number :=
  match a, b with
  | NaN, _ | _, NaN => NaN
  | Fin x, Fin y => Fin (x + y)
  | PosInf, NegInf | NegInf, PosInf => NaN
  | PosInf, _ | _, PosInf => PosInf
  | NegInf, _ | _, NegInf => NegInf
  end.

(** [a - b] *)
Definition sub (a b : number) : number := add a (neg b).

(** An infinity with the sign of [q > 0]; [inf * 0] is [NaN]. *)
Definition scale_inf (positive : bool) (q : Q) : number :=
  match sgn q with
  | Eq => NaN
  | Lt => if positive then PosInf else NegInf
  | Gt => if positive then NegInf else PosInf
  end.

(** [a * b] *)
Definition mul (a b : number) : number :=
  match a, b with
  | NaN, _ | _, NaN => NaN
  | Fin x, Fin y => Fin (x * y)
  | PosInf, Fin y => scale_inf true y
  | NegInf, Fin y => scale_inf false y
  | Fin x, PosInf => scale_inf true x
  | Fin x, NegInf => scale_inf false x
  | PosInf, PosInf | NegInf, NegInf => PosInf
  | PosInf, NegInf | NegInf, PosInf => NegInf
  end.

(** [a / b]: a finite value over zero is [NaN] for [0/0] and an infinity
    otherwise. *)
Definition div (a b : number) : number :=
  match a, b with
  | NaN, _ | _, NaN => NaN
  | Fin x, Fin y =>
      match sgn y with
      | Eq => match sgn x with
              | Eq => NaN
              | Lt => PosInf
              | Gt => NegInf
              end
      | _ => Fin (x / y)
      end
  | Fin _, (PosInf | NegInf) => Fin 0
  | (PosInf | NegInf), (PosInf | NegInf) => NaN
  | PosInf, Fin y => match sgn y with Gt => NegInf | _ => PosInf end
  | NegInf, Fin y => match sgn y with Gt => PosInf | _ => NegInf end
  end.

(** [a > b] *)
Definition gt (a b : number) : bool :=
  match a, b with
  | NaN, _ | _, NaN => false
  | Fin x, Fin y => match y ?= x with Lt => true | _ => false end
  | PosInf, PosInf => false
  | PosInf, _ => true
  | _, PosInf => false
  | NegInf, _ => false
  | Fin _, NegInf => true
  end.

(** [a >= b] *)
Definition ge (a b : number) : bool :=
  match a, b with
  | NaN, _ | _, NaN => false
  | Fin x, Fin y => Qle_bool y x
  | PosInf, _ => true
  | _, NegInf => true
  | _, PosInf => false
  | NegInf, _ => false
  end.

(** [a === b] *)
Definition strict_eq (a b : number) : bool :=
  match a, b with
  | Fin x, Fin y => Qeq_bool x y
  | PosInf, PosInf | NegInf, NegInf => true
  | _, _ => false
  end.

(** Truthiness of a number: [0] and [NaN] are falsy. *)
Definition truthy (a : number) : bool :=
  match a with
  | Fin q => negb (Qeq_bool q 0)
  | PosInf | NegInf => true
  | NaN => false
  end.

(** [a || b] on numbers. *)
Definition or_else (a b : number) : number := if truthy a then a else b.

(** [Math.max(...l)] and [Math.min(...l)]: [-Infinity] and [Infinity] on
    no argument, [NaN] as soon as one argument is [NaN]. *)
Definition max2 (a b : number) : number :=
  match a, b with
  | NaN, _ | _, NaN => NaN
  | _, _ => if ge a b then a else b
  end.

Definition min2 (a b : number) : number :=
  match a, b with
  | NaN, _ | _, NaN => NaN
  | _, _ => if ge b a then a else b
  end.

Definition Math_max (l : list number) : number := fold_left max2 l NegInf.
Definition Math_min (l : list number) : number := fold_left min2 l PosInf.

(** Equality of numbers up to the representation of a rational.  [NaN]
    is related to itself here: this is the meta-level "same value", not
    the [===] of the language. *)
Definition eqv (a b : number) : Prop :=
  match a, b with
  | Fin x, Fin y => x == y
  | PosInf, PosInf | NegInf, NegInf | NaN, NaN => True
  | _, _ => False
  end.

Definition is_finite (a : number) : bool :=
  match a with Fin _ => true | _ => false end.

(** The rational a finite number stands for ([0] on the special values). *)
Definition val (a : number) : Q :=
  match a with Fin q => q | _ => 0 end.


End Num.

Infix "≃" := Num.eqv (at level 70, no associativity).

(** ** Strings *)

(** [String.prototype.toLowerCase] on the ASCII letters. *)
Definition toLowerCase_ascii (c : ascii) : ascii :=
let n := nat_of_ascii c in
if ((65 <=? n) && (n <=? 90))%nat then ascii_of_nat (n + 32) else c.

Fixpoint toLowerCase (s : string) : string :=
match s with
| EmptyString => EmptyString
| String c s' => String (toLowerCase_ascii c) (toLowerCase s')
end.

(** ** Data model (the fields the views read) *)

Module Performance.
Record t : Type := mk {
  impressions : number;
  clicks : number;
  conversions : number
}.
End Performance.

Record DemographicBreakdown : Type := {
gender : string;
age_group : string;
performance : Performance.t
}.

Module Device.
Record t : Type := mk {
  device : string;
  impressions : number;
  clicks : number;
  conversions : number;
  spend : number;
  revenue : number;
  ctr : number;
  conversion_rate : number;
  percentage_of_traffic : number
}.
End Device.
Abbreviation DevicePerformance := Device.t.

Module Regional.
Record t : Type := mk {
  region : string;
  country : string;
  spend : number;
  revenue : number
}.
End Regional.
Abbreviation RegionalPerformance := Regional.t.

Module Weekly.
Record t : Type := mk {
  week_start : string;
  week_end : string;
  spend : number;
  revenue : number
}.
End Weekly.
Abbreviation WeeklyPerformance := Weekly.t.

Module Campaign.
Record t : Type := mk {
  spend : number;
  revenue : number;
  demographic_breakdown : list DemographicBreakdown;
  device_performance : list DevicePerformance;
  regional_performance : list RegionalPerformance;
  weekly_performance : list WeeklyPerformance
}.
End Campaign.

(** [MarketingData | null], read through [marketingData?.campaigns]. *)
Definition MarketingData : Type := option (list Campaign.t).

(** ** Metric primitives *)

Module Metric.

(** [impressions > 0 ? (clicks / impressions) * 100 : 0] *)
Definition ctr (clicks impressions : number) : number :=
if Num.gt impressions (Fin 0)
then Num.mul (Num.div clicks impressions) (Fin 100)
else Fin 0.

(** [clicks > 0 ? (conversions / clicks) * 100 : 0] *)
Definition conversionRate (conversions clicks : number) : number :=
if Num.gt clicks (Fin 0)
then Num.mul (Num.div conversions clicks) (Fin 100)
else Fin 0.

End Metric.

(** ** Device view *)

Module DeviceView.
Import Device.

(** The entry created the first time a key is met. *)
Definition fresh (label : string) : DevicePerformance :=
  {| device := label;
     impressions := Fin 0; clicks := Fin 0; conversions := Fin 0;
     spend := Fin 0; revenue := Fin 0;
     ctr := Fin 0; conversion_rate := Fin 0;
     percentage_of_traffic := Fin 0 |}.

(** The five [+=] and the plain assignment of [percentage_of_traffic]. *)
Definition accumulate (device entry : DevicePerformance) : DevicePerformance :=
  {| device := entry.(Device.device);
     impressions := Num.add entry.(impressions) device.(impressions);
     clicks := Num.add entry.(clicks) device.(clicks);
     conversions := Num.add entry.(conversions) device.(conversions);
     spend := Num.add entry.(spend) device.(spend);
     revenue := Num.add entry.(revenue) device.(revenue);
     ctr := entry.(ctr);
     conversion_rate := entry.(conversion_rate);
     percentage_of_traffic := device.(percentage_of_traffic) |}.

(** Body of the inner [forEach]. *)
Definition visit (deviceMap : gmap string DevicePerformance)
    (device : DevicePerformance) : gmap string DevicePerformance :=
  let deviceKey := toLowerCase device.(Device.device) in
  let deviceMap :=
    match deviceMap !! deviceKey with
    | None => <[deviceKey := fresh device.(Device.device)]> deviceMap
    | Some _ => deviceMap
    end in
  alter (accumulate device) deviceKey deviceMap.

Definition aggregate (campaigns : list Campaign.t) : gmap string DevicePerformance :=
  fold_left
    (fun deviceMap campaign =>
       fold_left visit campaign.(Campaign.device_performance) deviceMap)
    campaigns ∅.

(** Body of [Object.values(deviceMap).forEach]. *)
Definition recalculate (device : DevicePerformance) : DevicePerformance :=
  {| device := device.(Device.device);
     impressions := device.(impressions);
     clicks := device.(clicks);
     conversions := device.(conversions);
     spend := device.(spend);
     revenue := device.(revenue);
     ctr := Metric.ctr device.(clicks) device.(impressions);
     conversion_rate := Metric.conversionRate device.(conversions) device.(clicks);
     percentage_of_traffic := device.(percentage_of_traffic) |}.

(** The map after both loops. *)
Definition deviceMap (campaigns : list Campaign.t) : gmap string DevicePerformance :=
  recalculate <$> aggregate campaigns.

Record Metrics : Type := {
  mobile : option DevicePerformance;
  desktop : option DevicePerformance
}.


(** *** What the rollup of one key is, stated on the input

    All device sub-records of the dataset in iteration order, those of one
    key, and the summary of a non-empty run of them. *)
Definition records (campaigns : list Campaign.t) : list DevicePerformance :=
  flat_map Campaign.device_performance campaigns.

Definition of_key (k : string) (l : list DevicePerformance) : list DevicePerformance :=
  filter (fun d => toLowerCase d.(Device.device) = k) l.




End DeviceView.

(** ** Objects enumerated in insertion order *)

Module Obj.

Definition t (V : Type) : Type := list (string * V).

(** [o[k]], [None] for [undefined]. *)
Fixpoint get {V : Type} (k : string) (o : t V) : option V :=
  match o with
  | [] => None
  | (k', v) :: o' => if String.eqb k k' then Some v else get k o'
  end.

(** [o[k] = v]: an existing property keeps its place, a new one goes last. *)
Fixpoint set {V : Type} (k : string) (v : V) (o : t V) : t V :=
  match o with
  | [] => [(k, v)]
  | (k', v') :: o' =>
      if String.eqb k k' then (k, v) :: o' else (k', v') :: set k v o'
  end.

(** [Object.entries(o)] and [Object.values(o)]. *)
Definition entries {V : Type} (o : t V) : list (string * V) := o.
Definition values {V : Type} (o : t V) : list V := map snd o.

End Obj.

(** ** [Array.prototype.sort] with a comparator

    The language fixes the result of [sort] for a consistent comparator:
    the stable arrangement in which [cmp a b > 0] never holds for [a]
    before [b].  A comparator result of [NaN] counts as [0].  The model is
    the stable insertion sort, which computes that arrangement. *)

Fixpoint sort_insert {A : Type} (cmp : A -> A -> number) (x : A) (l : list A) : list A :=
  match l with
  | [] => [x]
  | y :: l' =>
      if Num.gt (cmp x y) (Fin 0) then y :: sort_insert cmp x l' else x :: y :: l'
  end.

Definition Array_sort {A : Type} (cmp : A -> A -> number) (l : list A) : list A :=
  fold_right (sort_insert cmp) [] l.

(** The comparator orders the elements of [l] by a rational key: it is
    positive exactly when its first argument has the larger key. *)
Definition orders_by {A : Type} (cmp : A -> A -> number) (key : A -> Q) (l : list A) : Prop :=
  forall x y, In x l -> In y l ->
    (Num.gt (cmp x y) (Fin 0) = true <-> key y < key x).

(** [s.startsWith(sep)] *)
Fixpoint starts_with (sep s : string) : bool :=
  match sep, s with
  | EmptyString, _ => true
  | String a sep', String b s' => Ascii.eqb a b && starts_with sep' s'
  | String _ _, EmptyString => false
  end.

(** [s.split(sep)[0]] for a non-empty separator: the text before the first
    occurrence of [sep], all of [s] when there is none. *)
Fixpoint split_head (sep s : string) : string :=
  match s with
  | EmptyString => EmptyString
  | String c s' =>
      if starts_with sep s then EmptyString else String c (split_head sep s')
  end.

(** ** Demographic view *)

Module AgeGroupRow.
Record t : Type := mk {
  ageGroup : string;
  clicks : number;
  spend : number;
  revenue : number
}.
End AgeGroupRow.

Module TableRow.
Record t : Type := mk {
  ageGroup : string;
  impressions : number;
  clicks : number;
  conversions : number;
  ctr : number;
  conversionRate : number
}.
End TableRow.

Module DemographicView.

(** The accumulators of the two nested loops. *)
Record Totals : Type := {
  totalClicks : number;
  maleClicks : number;
  femaleClicks : number;
  totalSpend : number;
  totalRevenue : number;
  ageGroupClicks : Obj.t number;
  maleAgeGroupData : Obj.t Performance.t;
  femaleAgeGroupData : Obj.t Performance.t
}.


(** [if (!data[age]) data[age] = {0,0,0}] followed by the three [+=] on the
    entry. *)
Definition add_performance (demo : DemographicBreakdown)
    (data : Obj.t Performance.t) : Obj.t Performance.t :=
  let age := demo.(age_group) in
  let data :=
    match Obj.get age data with
    | None => Obj.set age (Performance.mk (Fin 0) (Fin 0) (Fin 0)) data
    | Some _ => data
    end in
  match Obj.get age data with
  | Some entry =>
      Obj.set age
        (Performance.mk
           (Num.add entry.(Performance.impressions) demo.(performance).(Performance.impressions))
           (Num.add entry.(Performance.clicks) demo.(performance).(Performance.clicks))
           (Num.add entry.(Performance.conversions) demo.(performance).(Performance.conversions)))
        data
  | None => data
  end.

(** [if (!ageGroupClicks[age]) ageGroupClicks[age] = 0] followed by
    [ageGroupClicks[age] += clicks]; a stored [0] or [NaN] is falsy and is
    reset like a missing property. *)
Definition add_clicks (age : string) (clicks : number)
    (ageGroupClicks : Obj.t number) : Obj.t number :=
  let ageGroupClicks :=
    match Obj.get age ageGroupClicks with
    | Some v => if Num.truthy v then ageGroupClicks else Obj.set age (Fin 0) ageGroupClicks
    | None => Obj.set age (Fin 0) ageGroupClicks
    end in
  match Obj.get age ageGroupClicks with
  | Some v => Obj.set age (Num.add v clicks) ageGroupClicks
  | None => ageGroupClicks
  end.

(** Body of the inner [forEach]. *)
Definition visit (st : Totals) (demo : DemographicBreakdown) : Totals :=
  let clicks := demo.(performance).(Performance.clicks) in
  let male := String.eqb (toLowerCase demo.(gender)) "male" in
  let female := String.eqb (toLowerCase demo.(gender)) "female" in
  {| totalClicks := Num.add st.(totalClicks) clicks;
     maleClicks := if male then Num.add st.(maleClicks) clicks else st.(maleClicks);
     femaleClicks :=
       if male then st.(femaleClicks)
       else if female then Num.add st.(femaleClicks) clicks else st.(femaleClicks);
     totalSpend := st.(totalSpend);
     totalRevenue := st.(totalRevenue);
     ageGroupClicks := add_clicks demo.(age_group) clicks st.(ageGroupClicks);
     maleAgeGroupData :=
       if male then add_performance demo st.(maleAgeGroupData) else st.(maleAgeGroupData);
     femaleAgeGroupData :=
       if male then st.(femaleAgeGroupData)
       else if female then add_performance demo st.(femaleAgeGroupData)
       else st.(femaleAgeGroupData) |}.








Module Metrics.
Record t : Type := mk {
  maleClicks : number;
  femaleClicks : number;
  maleSpend : number;
  femaleSpend : number;
  maleRevenue : number;
  femaleRevenue : number;
  ageGroupData : list AgeGroupRow.t;
  maleTableData : list TableRow.t;
  femaleTableData : list TableRow.t
}.
End Metrics.



(** All demographic sub-records of the dataset, in iteration order. *)
Definition records (campaigns : list Campaign.t) : list DemographicBreakdown :=
  flat_map Campaign.demographic_breakdown campaigns.





(** *** Vocabulary of the properties *)

(** Sum of a list of rationals. *)
Definition Qsum (l : list Q) : Q := fold_right Qplus 0 l.








(** The value [add_clicks] adds to: a stored falsy value counts as [0]. *)
Definition stored (age : string) (o : Obj.t number) : number :=
  match Obj.get age o with
  | Some v => if Num.truthy v then v else Fin 0
  | None => Fin 0
  end.




(** A small dataset: two campaigns, with one sub-record of another gender. *)
Definition demo (gender age : string) (impressions clicks conversions : Q) : DemographicBreakdown :=
  {| gender := gender; age_group := age;
     performance := Performance.mk (Fin impressions) (Fin clicks) (Fin conversions) |}.


End DemographicView.

(** ** Weekly view *)

Module ChartPoint.
Record t : Type := mk {
  label : string;
  value : number
}.
End ChartPoint.

Module WeeklyView.

Record WeekTotals : Type := {
  spend : number;
  revenue : number;
  weekLabel : string
}.

(** [`${week.week_start} to ${week.week_end}`] *)
Definition weekKey (week : WeeklyPerformance) : string :=
  String.append week.(Weekly.week_start) (String.append " to " week.(Weekly.week_end)).

(** Body of the inner [forEach]. *)
Definition visit (weeklyData : Obj.t WeekTotals) (week : WeeklyPerformance) : Obj.t WeekTotals :=
  let weekKey := weekKey week in
  let weeklyData :=
    match Obj.get weekKey weeklyData with
    | None => Obj.set weekKey {| spend := Fin 0; revenue := Fin 0; weekLabel := weekKey |} weeklyData
    | Some _ => weeklyData
    end in
  match Obj.get weekKey weeklyData with
  | Some entry =>
      Obj.set weekKey
        {| spend := Num.add entry.(spend) week.(Weekly.spend);
           revenue := Num.add entry.(revenue) week.(Weekly.revenue);
           weekLabel := entry.(weekLabel) |}
        weeklyData
  | None => weeklyData
  end.

Definition weeklyData (campaigns : list Campaign.t) : Obj.t WeekTotals :=
  fold_left
    (fun weeklyData campaign => fold_left visit campaign.(Campaign.weekly_performance) weeklyData)
    campaigns [].

(** [a.weekLabel.split(' to ')[0]] *)
Definition startOf (week : WeekTotals) : string := split_head " to " week.(weekLabel).

Section Dates.

(** [new Date(s).getTime()] of the host: milliseconds since the epoch, [NaN]
    for a string that is not a date. *)
Variable Date_getTime : string -> number.

Definition by_week_start (a b : WeekTotals) : number :=
  let aStart := startOf a in
  let bStart := startOf b in
  Num.sub (Date_getTime aStart) (Date_getTime bStart).

Definition sortedWeeks (campaigns : list Campaign.t) : list WeekTotals :=
  Array_sort by_week_start (Obj.values (weeklyData campaigns)).

Record ChartData : Type := {
  spendData : list ChartPoint.t;
  revenueData : list ChartPoint.t
}.

Definition weeklyChartData (marketingData : MarketingData) : option ChartData :=
  match marketingData with
  | None => None
  | Some campaigns =>
      let sortedWeeks := sortedWeeks campaigns in
      Some {| spendData :=
                map (fun week => ChartPoint.mk (startOf week) week.(spend)) sortedWeeks;
              revenueData :=
                map (fun week => ChartPoint.mk (startOf week) week.(revenue)) sortedWeeks |}
  end.

End Dates.

(** All weekly sub-records of the dataset, in iteration order. *)
Definition records (campaigns : list Campaign.t) : list WeeklyPerformance :=
  flat_map Campaign.weekly_performance campaigns.

(** A series is in ascending date order when the dates of its labels are. *)
Definition ascending (Date_getTime : string -> number) (series : list ChartPoint.t) : Prop :=
  StronglySorted
    (fun a b => Num.val (Date_getTime a.(ChartPoint.label))
                <= Num.val (Date_getTime b.(ChartPoint.label)))
    series.

Definition no_space (s : string) : bool :=
  forallb (fun c => negb (Ascii.eqb c " ")) (list_ascii_of_string s).

(** Entries carry their key as label. *)
Definition labelled (o : Obj.t WeekTotals) : Prop :=
  forall k e, In (k, e) o -> e.(weekLabel) = k.

(** Three weeks reported out of order by one campaign. *)
Definition out_of_order : list Campaign.t :=
  [ {| Campaign.spend := Fin 600; Campaign.revenue := Fin 1200;
       Campaign.demographic_breakdown := [];
       Campaign.device_performance := [];
       Campaign.regional_performance := [];
       Campaign.weekly_performance :=
         [ Weekly.mk "2024-01-08" "2024-01-14" (Fin 200) (Fin 400);
           Weekly.mk "2024-01-01" "2024-01-07" (Fin 100) (Fin 300);
           Weekly.mk "2024-01-15" "2024-01-21" (Fin 300) (Fin 500) ] |} ].

End WeeklyView.

(** The date-only ISO form [YYYY-MM-DD], which [Date] reads as midnight UTC.
    Used for the worked examples; the properties of the weekly view hold for
    any date parser. *)
Module IsoDate.

Definition digit (c : ascii) : option Z :=
  let n := Z.of_nat (nat_of_ascii c) in
  if ((48 <=? n) && (n <=? 57))%Z then Some (n - 48)%Z else None.

Definition number2 (a b : ascii) : option Z :=
  match digit a, digit b with
  | Some x, Some y => Some (10 * x + y)%Z
  | _, _ => None
  end.

Definition leap (y : Z) : bool :=
  ((y mod 4 =? 0) && (negb (y mod 100 =? 0) || (y mod 400 =? 0)))%Z.

Definition days_in_month (y m : Z) : Z :=
  (if m =? 2 then (if leap y then 29 else 28)
   else if (m =? 4) || (m =? 6) || (m =? 9) || (m =? 11) then 30 else 31)%Z.

(** Days from 1970-01-01 to the civil date [y-m-d]. *)
Definition days_from_civil (y m d : Z) : Z :=
  (let y := if m <=? 2 then y - 1 else y in
   let era := y / 400 in
   let yoe := y - era * 400 in
   let doy := (153 * (if 2 <? m then m - 3 else m + 9) + 2) / 5 + d - 1 in
   let doe := yoe * 365 + yoe / 4 - yoe / 100 + doy in
   era * 146097 + doe - 719468)%Z.

Definition getTime (s : string) : number :=
  match list_ascii_of_string s with
  | [y1; y2; y3; y4; dash1; m1; m2; dash2; d1; d2] =>
      match number2 y1 y2, number2 y3 y4, number2 m1 m2, number2 d1 d2 with
      | Some yh, Some yl, Some m, Some d =>
          let y := (100 * yh + yl)%Z in
          if Ascii.eqb dash1 "-" && Ascii.eqb dash2 "-"
             && (1 <=? m)%Z && (m <=? 12)%Z && (1 <=? d)%Z && (d <=? days_in_month y m)%Z
          then Fin (inject_Z (days_from_civil y m d * 86400000))
          else NaN
      | _, _, _, _ => NaN
      end
  | _ => NaN
  end.

End IsoDate.

(** ** Heat map *)

Module HeatMap.

Record Coordinates : Type := { lat : number; lng : number }.

Module DataPoint.
Record t : Type := mk {
  region : string;
  country : string;
  value : number;
  lat : number;
  lng : number;
  color : option string
}.
End DataPoint.

Definition at_ (lat lng : Q) : Coordinates := {| lat := Fin lat; lng := Fin lng |}.

Definition uaeCoordinates : gmap string Coordinates :=
  list_to_map
    [ ("Dubai", at_ 25.2048 55.2708);
      ("Sharjah", at_ 25.3463 55.4209);
      ("Abu Dhabi", at_ 24.4539 54.3773);
      ("Ajman", at_ 25.4052 55.5136);
      ("Ras Al Khaimah", at_ 25.6741 55.9804);
      ("Fujairah", at_ 25.1288 56.3265);
      ("Umm Al Quwain", at_ 25.5653 55.5533);
      ("Al Ain", at_ 24.1302 55.8023);
      ("Riyadh", at_ 24.7136 46.6753);
      ("Jeddah", at_ 21.4858 39.1925);
      ("Doha", at_ 25.2854 51.5310);
      ("Muscat", at_ 23.5880 58.3829);
      ("Manama", at_ 26.2235 50.5876);
      ("Kuwait City", at_ 29.3759 47.9774);
      ("Cairo", at_ 30.0444 31.2357);
      ("London", at_ 51.5074 (-0.1278));
      ("New York", at_ 40.7128 (-74.0060));
      ("Tokyo", at_ 35.6762 139.6503);
      ("Singapore", at_ 1.3521 103.8198);
      ("Mumbai", at_ 19.0760 72.8777) ].

(** [uaeCoordinates[region] || { lat: 24.0, lng: 54.0 }] *)
Definition resolve (region : string) : Coordinates :=
  default (at_ 24.0 54.0) (uaeCoordinates !! region).

Definition colorScale : list string :=
  [ "#3B82F6"; "#10B981"; "#F59E0B"; "#EF4444"; "#8B5CF6";
    "#06B6D4"; "#84CC16"; "#F97316"; "#EC4899"; "#6366F1" ].

(** [point.color || colorScale[index % colorScale.length]]; the empty string
    is falsy. *)
Definition color_of (point : DataPoint.t) (index : nat) : string :=
  let cycled := nth (index mod length colorScale) colorScale "" in
  match point.(DataPoint.color) with
  | Some c => if String.eqb c "" then cycled else c
  | None => cycled
  end.

(** [maxValue === minValue ? 0.5 : (value - minValue) / (maxValue - minValue)] *)
Definition normalize (minValue maxValue value : number) : number :=
  if Num.strict_eq maxValue minValue then Fin 0.5
  else Num.div (Num.sub value minValue) (Num.sub maxValue minValue).

(** [10000 + normalized * 150000] *)
Definition radius_of (normalized : number) : number :=
  Num.add (Fin 10000) (Num.mul normalized (Fin 150000)).

Record Circle : Type := {
  center : Coordinates;
  radius : number;
  circle_color : string;
  circle_point : DataPoint.t
}.

Record Row : Type := {
  row_color : string;
  row_point : DataPoint.t
}.

(** Body of [data.forEach((point, index) => ...)] in the effect. *)
Definition circle_of (minValue maxValue : number) (index : nat) (point : DataPoint.t) : Circle :=
  let coords := resolve point.(DataPoint.region) in
  let normalized := normalize minValue maxValue point.(DataPoint.value) in
  let radius := radius_of normalized in
  let color := color_of point index in
  {| center := coords; radius := radius; circle_color := color; circle_point := point |}.

(** The effect [loadLeaflet], run on the array [data] as it is at that time:
    nothing is drawn for an empty array. *)
Definition loadLeaflet (data : list DataPoint.t) : list Circle :=
  match data with
  | [] => []
  | _ =>
      let values := map DataPoint.value data in
      let maxValue := Num.Math_max values in
      let minValue := Num.Math_min values in
      imap (circle_of minValue maxValue) data
  end.

Definition by_value_desc (a b : DataPoint.t) : number :=
  Num.sub b.(DataPoint.value) a.(DataPoint.value).

(** The render pass on a non-empty array: [data.sort(...)] sorts the array
    of the caller in place and [.map] builds one table row per element.  The
    result is the array after the pass and the rows. *)
Definition render (data : list DataPoint.t) : list DataPoint.t * list Row :=
  match data with
  | [] => (data, [])
  | _ =>
      let data := Array_sort by_value_desc data in
      (data, imap (fun index point =>
                     {| row_color := color_of point index; row_point := point |}) data)
  end.

Record View : Type := {
  table : list Row;
  circles : list Circle;
  data_after : list DataPoint.t
}.

(** One mount of the component.  The function body runs first and returns
    the table; the callback given to [useEffect] runs after that render is
    committed (and [loadLeaflet] further waits for the dynamic import), on
    the same array object [data], hence on the array as the render pass left
    it. *)
Definition HeatMap (data : list DataPoint.t) : View :=
  let '(data, rows) := render data in
  {| table := rows; circles := loadLeaflet data; data_after := data |}.

(** *** Vocabulary of the properties *)






(** A point of the region view: no explicit colour, coordinates resolved by
    the caller. *)
Definition plain (region : string) (value : Q) : DataPoint.t :=
  {| DataPoint.region := region; DataPoint.country := "UAE";
     DataPoint.value := Fin value;
     DataPoint.lat := (resolve region).(lat);
     DataPoint.lng := (resolve region).(lng);
     DataPoint.color := None |}.

End HeatMap.

(** ** Region view *)

Module RegionView.

Record RegionTotals : Type := {
  spend : number;
  revenue : number;
  country : string
}.

(** Body of the inner [forEach]. *)
Definition visit (regionMap : Obj.t RegionTotals) (region : RegionalPerformance) : Obj.t RegionTotals :=
  let key := region.(Regional.region) in
  let regionMap :=
    match Obj.get key regionMap with
    | None =>
        Obj.set key {| spend := Fin 0; revenue := Fin 0; country := region.(Regional.country) |}
          regionMap
    | Some _ => regionMap
    end in
  match Obj.get key regionMap with
  | Some entry =>
      Obj.set key
        {| spend := Num.add entry.(spend) region.(Regional.spend);
           revenue := Num.add entry.(revenue) region.(Regional.revenue);
           country := entry.(country) |}
        regionMap
  | None => regionMap
  end.

Definition regionMap (campaigns : list Campaign.t) : Obj.t RegionTotals :=
  fold_left
    (fun regionMap campaign => fold_left visit campaign.(Campaign.regional_performance) regionMap)
    campaigns [].

(** The two [Object.entries(regionMap).map] callbacks, which differ in the
    field they plot. *)
Definition heat_point (pick : RegionTotals -> number) (entry : string * RegionTotals)
  : HeatMap.DataPoint.t :=
  let '(region, data) := entry in
  let coords := HeatMap.resolve region in
  {| HeatMap.DataPoint.region := region;
     HeatMap.DataPoint.country := data.(country);
     HeatMap.DataPoint.value := pick data;
     HeatMap.DataPoint.lat := coords.(HeatMap.lat);
     HeatMap.DataPoint.lng := coords.(HeatMap.lng);
     HeatMap.DataPoint.color := None |}.

Record RegionalData : Type := {
  revenueData : list HeatMap.DataPoint.t;
  spendData : list HeatMap.DataPoint.t
}.

Definition regionalData (marketingData : MarketingData) : option RegionalData :=
  match marketingData with
  | None => None
  | Some campaigns =>
      let regionMap := regionMap campaigns in
      Some {| revenueData := map (heat_point revenue) (Obj.entries regionMap);
              spendData := map (heat_point spend) (Obj.entries regionMap) |}
  end.

End RegionView.

(** ** Line chart *)

Module LineChart.

Record Series : Type := {
  name : string;
  data : list ChartPoint.t;
  color : option string
}.

(** [[...new Set(labels)]]: the distinct labels in first-seen order. *)
Definition unique (labels : list string) : list string :=
  fold_left
    (fun seen label => if existsb (String.eqb label) seen then seen else seen ++ [label])
    labels [].

(** [allLabels.indexOf(label)], [None] for [-1]. *)
Fixpoint indexOf (label : string) (labels : list string) : option nat :=
  match labels with
  | [] => None
  | l :: labels' =>
      if String.eqb l label then Some O else option_map S (indexOf label labels')
  end.

Definition of_nat (n : nat) : number := Fin (inject_Z (Z.of_nat n)).

Section Chart.

Variable series : list Series.
Variable height : number.

Definition allLabels : list string :=
  unique (flat_map (fun s => map ChartPoint.label s.(data)) series).
Definition allValues : list number :=
  flat_map (fun s => map ChartPoint.value s.(data)) series.
Definition maxValue : number := Num.Math_max allValues.
Definition minValue : number := Num.Math_min allValues.

Definition yAxisMin : number :=
  if Num.ge minValue (Fin 0) then Fin 0 else Num.mul minValue (Fin 1.1).
Definition yAxisRange : number := Num.sub maxValue yAxisMin.

Definition chartWidth : number := Fin 600.
Definition chartHeight : number := Num.sub height (Fin 120).
Definition padding : number := Fin 80.

Record Position : Type := { x : number; y : number }.

Definition getPointPosition (index : nat) (value : number) : Position :=
  let x :=
    Num.add padding
      (Num.mul (Num.div (of_nat index) (Num.sub (of_nat (length allLabels)) (Fin 1)))
               (Num.sub chartWidth (Num.mul (Fin 2) padding))) in
  let y :=
    Num.add padding
      (Num.mul (Num.div (Num.sub maxValue value) (Num.or_else yAxisRange (Fin 1)))
               (Num.sub chartHeight (Num.mul (Fin 2) padding))) in
  {| x := x; y := y |}.

(** The points of [createPath]: a point whose label is not found is
    dropped. *)
Definition points (data : list ChartPoint.t) : list Position :=
  omap
    (fun point =>
       match indexOf point.(ChartPoint.label) allLabels with
       | None => None
       | Some labelIndex => Some (getPointPosition labelIndex point.(ChartPoint.value))
       end)
    data.

(** The chart is drawn only when some series has a point. *)
Definition empty_chart : bool :=
  forallb (fun s => match s.(data) with [] => true | _ => false end) series.

Definition plotted : option (list (list Position)) :=
  if empty_chart then None else Some (map (fun s => points s.(data)) series).

End Chart.

(** A chart of one series with one point, as the weekly view draws it for a
    dataset of a single week. *)
Definition one_week_series : list Series :=
  [ {| name := "Revenue";
       data := [ChartPoint.mk "2024-01-01" (Fin 100)];
       color := Some "#10B981" |} ].

End LineChart.

(** ** Line chart: axes, grid and legend *)

Module LineChartAxes.
Import LineChart.

Definition colors : list string :=
  [ "#3B82F6"; "#10B981"; "#F59E0B"; "#EF4444"; "#8B5CF6";
    "#06B6D4"; "#84CC16"; "#F97316"; "#EC4899"; "#6366F1" ].

(** [s.color || colors[index % colors.length]] *)
Definition series_color (s : Series) (index : nat) : string :=
  let cycled := nth (index mod length colors) colors "" in
  match s.(color) with
  | Some c => if String.eqb c "" then cycled else c
  | None => cycled
  end.

(** The five fractions at which grid lines and value labels are drawn. *)
Definition ratios : list Q := [0; 0.25; 0.5; 0.75; 1].

Record XLabel : Type := { text : string; label_x : number; label_y : number }.
Record YLabel : Type := { tick_value : number; tick_y : number; text_y : number }.

Section Axes.

Variable series : list Series.
Variable height : number.

(** [padding + ratio * (chartHeight - 2 * padding)] for each ratio. *)
Definition gridLines : list number :=
  map (fun ratio =>
         Num.add padding
           (Num.mul (Fin ratio) (Num.sub (chartHeight height) (Num.mul (Fin 2) padding))))
      ratios.

(** [allLabels.map((label, index) => ...)] of the x-axis. *)
Definition xAxisLabels : list XLabel :=
  imap (fun index label =>
          let x :=
            Num.add padding
              (Num.mul (Num.div (of_nat index)
                          (Num.sub (of_nat (length (allLabels series))) (Fin 1)))
                       (Num.sub chartWidth (Num.mul (Fin 2) padding))) in
          let y := Num.sub (chartHeight height) (Fin 10) in
          {| text := label; label_x := x; label_y := y |})
       (allLabels series).

(** The value labels of the y-axis; the text is drawn at [y + 4]. *)
Definition yAxisLabels : list YLabel :=
  map (fun ratio =>
         let value := Num.add (yAxisMin series) (Num.mul (Fin ratio) (yAxisRange series)) in
         let y :=
           Num.add padding
             (Num.mul (Num.sub (Fin 1) (Fin ratio))
                      (Num.sub (chartHeight height) (Num.mul (Fin 2) padding))) in
         {| tick_value := value; tick_y := y; text_y := Num.add y (Fin 4) |})
      ratios.

End Axes.

(** Every value and the height of the chart are finite numbers. *)
Definition finite_chart (series : list Series) (height : number) : Prop :=
  Num.is_finite height = true /\
  Forall (fun v => Num.is_finite v = true) (allValues series).

End LineChartAxes.

(** ** Heat map: the bounds the map is fitted to *)

Module HeatMapBounds.
Import HeatMap.

(** The markers collected for [fitBounds]: one per point whose region is a
    key of the coordinate table; the other points are skipped. *)
Definition group (data : list DataPoint.t) : list Coordinates :=
  omap (fun point => uaeCoordinates !! point.(DataPoint.region)) data.

(** [group.getLayers().length > 0]: whether [map.fitBounds] is called. *)
Definition fits (data : list DataPoint.t) : bool :=
  match group data with [] => false | _ => true end.

End HeatMapBounds.

(** ** Device view: the comparison row *)

Module DeviceComparison.
Import DeviceView.

(** [mobile && desktop ? (mobile.f / desktop.f) * 100 : '0'], before
    [toFixed]; [None] stands for the text ['0']. *)
Definition compare (f : DevicePerformance -> number) (metrics : Metrics) : option number :=
  match metrics.(mobile), metrics.(desktop) with
  | Some mobile, Some desktop => Some (Num.mul (Num.div (f mobile) (f desktop)) (Fin 100))
  | _, _ => None
  end.

Definition clicks_comparison : Metrics -> option number := compare Device.clicks.
Definition conversions_comparison : Metrics -> option number := compare Device.conversions.
Definition revenue_comparison : Metrics -> option number := compare Device.revenue.

End DeviceComparison.

(** ** Weekly view: the chart it draws *)

Module WeeklyChart.

(** The two series handed to [LineChart]. *)
Definition chart_series (chart : WeeklyView.ChartData) : list LineChart.Series :=
  [ {| LineChart.name := "Revenue";
       LineChart.data := chart.(WeeklyView.revenueData);
       LineChart.color := Some "#10B981" |};
    {| LineChart.name := "Spend";
       LineChart.data := chart.(WeeklyView.spendData);
       LineChart.color := Some "#3B82F6" |} ].

End WeeklyChart.

(** ** Vocabulary of the rollup properties *)

Module Rollup.

(** The shape shared by the loops over an object: create the entry of a key
    when it is missing, then update it from the sub-record. *)
Definition upsert {X V : Type} (key : X -> string) (init : X -> V) (step : V -> X -> V)
    (o : Obj.t V) (x : X) : Obj.t V :=
  let o :=
    match Obj.get (key x) o with
    | None => Obj.set (key x) (init x) o
    | Some _ => o
    end in
  match Obj.get (key x) o with
  | Some entry => Obj.set (key x) (step entry x) o
  | None => o
  end.

(** The sub-records of one key, in order. *)
Definition of_key {X : Type} (key : X -> string) (k : string) (l : list X) : list X :=
  List.filter (fun x => String.eqb (key x) k) l.

(** The entry of a key after the loop. *)
Definition entry_of {X V : Type} (init : X -> V) (step : V -> X -> V) (xs : list X) : option V :=
  match xs with
  | [] => None
  | x0 :: _ => Some (fold_left step xs (init x0))
  end.

(** The distinct strings of a list, in first-seen order. *)
Definition first_seen (l : list string) : list string := LineChart.unique l.

End Rollup.

(** * Properties *)

(** ** Numbers *)

Module NumFacts.

Lemma eqv_refl a : a ≃ a.
Proof. destruct a; simpl; auto. reflexivity. Qed.

Lemma eqv_sym a b : a ≃ b -> b ≃ a.
Proof. destruct a, b; simpl; auto. intros H; symmetry; exact H. Qed.

Lemma eqv_trans a b c : a ≃ b -> b ≃ c -> a ≃ c.
Proof.
  destruct a, b, c; simpl; auto; try contradiction.
  intros H1 H2. rewrite H1. exact H2.
Qed.

Lemma sgn_pos q : 0 < q -> Num.sgn q = Lt.
Proof. intros H. unfold Num.sgn. apply Qlt_alt. exact H. Qed.

Lemma sgn_neg q : q < 0 -> Num.sgn q = Gt.
Proof. intros H. unfold Num.sgn. apply Qgt_alt. exact H. Qed.

Lemma sgn_zero q : q == 0 -> Num.sgn q = Eq.
Proof. intros H. unfold Num.sgn. apply Qeq_alt. symmetry. exact H. Qed.

Lemma gt_fin x y : Num.gt (Fin x) (Fin y) = true <-> y < x.
Proof.
  simpl. rewrite Qlt_alt. destruct (y ?= x); split; congruence.
Qed.

Lemma gt_fin_false x y : Num.gt (Fin x) (Fin y) = false <-> x <= y.
Proof.
  split; intros H.
  - apply Qnot_lt_le. intros Hlt. apply gt_fin in Hlt. congruence.
  - destruct (Num.gt (Fin x) (Fin y)) eqn:E; [|reflexivity].
    apply gt_fin in E. exfalso. apply (Qlt_not_le _ _ E H).
Qed.

Lemma div_fin x y : ~ y == 0 -> Num.div (Fin x) (Fin y) = Fin (x / y).
Proof.
  intros Hy. simpl. destruct (Num.sgn y) eqn:E; try reflexivity.
  exfalso. apply Hy. unfold Num.sgn in E. apply Qeq_alt in E. symmetry. exact E.
Qed.


End NumFacts.

(** ** Metric primitives *)

Module MetricFacts.
Import NumFacts.

Lemma ctr_pos a b : 0 < b -> Metric.ctr (Fin a) (Fin b) = Fin (a / b * 100).
Proof.
  intros Hb. unfold Metric.ctr.
  replace (Num.gt (Fin b) (Fin 0)) with true by (symmetry; apply gt_fin; exact Hb).
  rewrite div_fin; [reflexivity|].
  intros E. rewrite E in Hb. apply (Qlt_irrefl 0 Hb).
Qed.

Lemma ctr_nonpos a b : b <= 0 -> Metric.ctr a (Fin b) = Fin 0.
Proof.
  intros Hb. unfold Metric.ctr.
  replace (Num.gt (Fin b) (Fin 0)) with false; [reflexivity|].
  symmetry. apply gt_fin_false. exact Hb.
Qed.

Lemma ctr_finite a b : Num.is_finite (Metric.ctr (Fin a) (Fin b)) = true.
Proof.
  destruct (Qlt_le_dec 0 b) as [Hb|Hb].
  - rewrite ctr_pos by exact Hb. reflexivity.
  - rewrite ctr_nonpos by exact Hb. reflexivity.
Qed.

(** The two rates are the same expression of their two arguments. *)
Lemma conversionRate_ctr conversions clicks :
  Metric.conversionRate conversions clicks = Metric.ctr conversions clicks.
Proof. reflexivity. Qed.

End MetricFacts.

(** C3. On finite non-negative counters, [ctr] is
    [clicks / impressions * 100] when [impressions > 0] and [0] when
    [impressions] is [0]; [conversionRate] is [conversions / clicks * 100]
    when [clicks > 0] and [0] when [clicks] is [0]; both always return a
    finite number (never [NaN], never an infinity), and
    [ctr(0,0) = 0], [ctr(50,100) = 50], [conversionRate(0,0) = 0],
    [conversionRate(10,20) = 50]. *)
Theorem rates_are_total_and_guarded :
  (forall part whole : Q, 0 <= part -> 0 <= whole ->
     (0 < whole -> Metric.ctr (Fin part) (Fin whole) = Fin (part / whole * 100)) /\
     (whole == 0 -> Metric.ctr (Fin part) (Fin whole) = Fin 0) /\
     Num.is_finite (Metric.ctr (Fin part) (Fin whole)) = true /\
     (0 < whole -> Metric.conversionRate (Fin part) (Fin whole) = Fin (part / whole * 100)) /\
     (whole == 0 -> Metric.conversionRate (Fin part) (Fin whole) = Fin 0) /\
     Num.is_finite (Metric.conversionRate (Fin part) (Fin whole)) = true) /\
  Metric.ctr (Fin 0) (Fin 0) = Fin 0 /\
  Metric.ctr (Fin 50) (Fin 100) ≃ Fin 50 /\
  Metric.conversionRate (Fin 0) (Fin 0) = Fin 0 /\
  Metric.conversionRate (Fin 10) (Fin 20) ≃ Fin 50.
Proof.
  split; [|repeat split].
  intros part whole _ _.
  change (Metric.conversionRate (Fin part) (Fin whole))
    with (Metric.ctr (Fin part) (Fin whole)).
  assert (Hzero : whole == 0 -> Metric.ctr (Fin part) (Fin whole) = Fin 0).
  { intros E. apply MetricFacts.ctr_nonpos. rewrite E. apply Qle_refl. }
  pose proof (MetricFacts.ctr_pos part whole) as Hpos.
  pose proof (MetricFacts.ctr_finite part whole) as Hfin.
  repeat split; first [exact Hzero | exact Hpos | exact Hfin].
Qed.

Lemma rates_are_total_and_guarded_witness :
  0 <= 50 /\ 0 <= 100 /\ 0 < 100 /\ Metric.ctr (Fin 50) (Fin 100) = Fin (50 / 100 * 100).
Proof.
  assert (H1 : 0 <= 50) by (vm_compute; discriminate).
  assert (H2 : 0 <= 100) by (vm_compute; discriminate).
  assert (H3 : 0 < 100) by reflexivity.
  exact (conj H1 (conj H2 (conj H3
           (proj1 (proj1 rates_are_total_and_guarded 50 100 H1 H2) H3)))).
Defined.

(** ** Line chart *)

Module LineChartFacts.
Import LineChart.

Lemma indexOf_lt label labels i : indexOf label labels = Some i -> (i < length labels)%nat.
Proof.
  revert i. induction labels as [|l labels IH]; intros i; simpl; [discriminate|].
  destruct (String.eqb l label).
  - intros [= <-]. lia.
  - destruct (indexOf label labels) as [j|]; simpl; [|discriminate].
    intros [= <-]. specialize (IH j eq_refl). lia.
Qed.

Lemma single_label_x series height value :
  length (allLabels series) = 1%nat ->
  (getPointPosition series height 0 value).(x) = NaN.
Proof. intros H. unfold getPointPosition. simpl. rewrite H. reflexivity. Qed.

End LineChartFacts.

(** C2 (what the code does).  When the label union has exactly one label,
    [getPointPosition] divides [0] by [allLabels.length - 1 = 0]: the
    x-coordinate of every plotted point is [NaN], not the left padding edge
    [80].  The y-coordinate of the same function is guarded by
    [yAxisRange || 1]; the x-coordinate has no guard. *)
Theorem single_label_x_is_NaN series height s p :
  length (LineChart.allLabels series) = 1%nat ->
  In s series ->
  In p (LineChart.points series height s.(LineChart.data)) ->
  p.(LineChart.x) = NaN /\ p.(LineChart.x) <> LineChart.padding.
Proof.
  intros HL _ Hp. unfold LineChart.points in Hp.
  apply list_elem_of_In, list_elem_of_omap in Hp. destruct Hp as (point & _ & Hpos).
  destruct (LineChart.indexOf _ _) as [i|] eqn:Hi; [|discriminate].
  injection Hpos as <-.
  apply LineChartFacts.indexOf_lt in Hi. rewrite HL in Hi.
  assert (i = 0%nat) as -> by lia.
  rewrite LineChartFacts.single_label_x by exact HL. split; [reflexivity|discriminate].
Qed.

Lemma single_label_x_is_NaN_witness :
  option_map (map (map LineChart.x)) (LineChart.plotted LineChart.one_week_series (Fin 400))
    = Some [[NaN]] /\
  forall p, In p (LineChart.points LineChart.one_week_series (Fin 400)
                    [ChartPoint.mk "2024-01-01" (Fin 100)]) ->
            p.(LineChart.x) = NaN /\ p.(LineChart.x) <> LineChart.padding.
Proof.
  split; [reflexivity|].
  intros p Hp.
  apply (single_label_x_is_NaN LineChart.one_week_series (Fin 400)
           (LineChart.Build_Series "Revenue" [ChartPoint.mk "2024-01-01" (Fin 100)] (Some "#10B981")) p).
  - reflexivity.
  - left. reflexivity.
  - exact Hp.
Defined.

(** ** Device view *)

Module DeviceFacts.
Import Device DeviceView.








End DeviceFacts.




(** ** Region names and coordinates *)



(** ** Sorting *)

Module SortFacts.

Section Insertion.
Context {A : Type} (cmp : A -> A -> number).

Lemma sort_insert_perm x l : Permutation (sort_insert cmp x l) (x :: l).
Proof.
  induction l as [|y l IH]; simpl; [reflexivity|].
  destruct (Num.gt (cmp x y) (Fin 0)); [|reflexivity].
  rewrite IH. apply perm_swap.
Qed.

Lemma Array_sort_perm l : Permutation (Array_sort cmp l) l.
Proof.
  induction l as [|x l IH]; simpl; [reflexivity|].
  rewrite sort_insert_perm. apply perm_skip. exact IH.
Qed.

Lemma Array_sort_In x l : In x (Array_sort cmp l) <-> In x l.
Proof.
  split; apply Permutation_in; [|symmetry]; apply Array_sort_perm.
Qed.

Lemma Array_sort_nil l : Array_sort cmp l = [] -> l = [].
Proof.
  intros H. apply Permutation_nil. rewrite <- H. apply Array_sort_perm.
Qed.

Lemma sort_insert_sorted key x l :
  (forall y, In y l -> (Num.gt (cmp x y) (Fin 0) = true <-> key y < key x)) ->
  StronglySorted (fun a b => key a <= key b) l ->
  StronglySorted (fun a b => key a <= key b) (sort_insert cmp x l).
Proof.
  intros Hcmp Hs. induction Hs as [|y l Hs IH Hy]; simpl.
  - constructor; constructor.
  - destruct (Num.gt (cmp x y) (Fin 0)) eqn:E.
    + constructor.
      * apply IH. intros z Hz. apply Hcmp. right. exact Hz.
      * apply List.Forall_forall. intros z Hz.
        apply (Permutation_in _ (sort_insert_perm x l)) in Hz.
        destruct Hz as [<-|Hz].
        -- apply Qlt_le_weak. apply Hcmp; [left; reflexivity|exact E].
        -- rewrite List.Forall_forall in Hy. apply Hy. exact Hz.
    + assert (Hxy : key x <= key y).
      { apply Qnot_lt_le. intros Hlt. apply Hcmp in Hlt; [congruence|left; reflexivity]. }
      constructor; [constructor; assumption|].
      constructor; [exact Hxy|].
      apply List.Forall_forall. intros z Hz. rewrite List.Forall_forall in Hy.
      apply Qle_trans with (key y); [exact Hxy|apply Hy; exact Hz].
Qed.

Lemma Array_sort_sorted key l :
  orders_by cmp key l ->
  StronglySorted (fun a b => key a <= key b) (Array_sort cmp l).
Proof.
  induction l as [|x l IH]; intros Hcmp; simpl; [constructor|].
  apply sort_insert_sorted.
  - intros y Hy. apply (proj1 (Array_sort_In y l)) in Hy. apply Hcmp; [left; reflexivity|right; exact Hy].
  - apply IH. intros a b Ha Hb. apply Hcmp; right; assumption.
Qed.

End Insertion.

End SortFacts.

(** ** Heat map *)

Module HeatFacts.
Import HeatMap NumFacts.








End HeatFacts.



(** The radii for the values 10, 50 and 100, and for three equal values. *)
Example radii_10_50_100 :
  Forall2 Num.eqv
    (map HeatMap.radius
       (HeatMap.loadLeaflet
          [HeatMap.plain "Dubai" 10; HeatMap.plain "Sharjah" 50; HeatMap.plain "Ajman" 100]))
    [Fin 10000; Fin (230000 / 3); Fin 160000].
Proof. repeat constructor. Qed.

Example radii_all_equal :
  Forall2 Num.eqv
    (map HeatMap.radius
       (HeatMap.loadLeaflet
          [HeatMap.plain "Dubai" 7; HeatMap.plain "Sharjah" 7; HeatMap.plain "Ajman" 7]))
    [Fin 85000; Fin 85000; Fin 85000].
Proof. repeat constructor. Qed.

(** *** Colours of the table and of the map *)

Module PaletteFacts.
Import HeatMap.






End PaletteFacts.



(** ** Objects *)

Module ObjFacts.

Section Facts.
Context {V : Type}.
Implicit Types (o : Obj.t V) (k : string) (v : V).

Lemma get_set_eq k v o : Obj.get k (Obj.set k v o) = Some v.
Proof.
  induction o as [|[k' v'] o IH]; simpl.
  - rewrite String.eqb_refl. reflexivity.
  - destruct (String.eqb k k') eqn:E; simpl; rewrite ?String.eqb_refl, ?E; auto.
Qed.

Lemma get_set_ne k k' v o : k <> k' -> Obj.get k' (Obj.set k v o) = Obj.get k' o.
Proof.
  intros Hne. induction o as [|[k0 v0] o IH]; simpl.
  - destruct (String.eqb_spec k' k); [congruence|reflexivity].
  - destruct (String.eqb_spec k k0) as [->|Hk]; simpl.
    + destruct (String.eqb_spec k' k0); [congruence|reflexivity].
    + destruct (String.eqb k' k0); [reflexivity|exact IH].
Qed.

Lemma get_In k v o : Obj.get k o = Some v -> In (k, v) o.
Proof.
  induction o as [|[k' v'] o IH]; simpl; [discriminate|].
  destruct (String.eqb_spec k k') as [->|Hk].
  - intros [= ->]. left. reflexivity.
  - intros H. right. apply IH. exact H.
Qed.

Lemma In_get k v o : In (k, v) o -> exists v', Obj.get k o = Some v'.
Proof.
  induction o as [|[k' v'] o IH]; simpl; [intros []|].
  destruct (String.eqb_spec k k') as [->|Hk]; [eauto|].
  intros [[= -> ->]|H]; [congruence|]. apply IH. exact H.
Qed.

Lemma In_set k v k' v' o :
  In (k', v') (Obj.set k v o) -> (k' = k /\ v' = v) \/ In (k', v') o.
Proof.
  induction o as [|[k0 v0] o IH]; simpl.
  - intros [[= <- <-]|[]]. left. auto.
  - destruct (String.eqb k k0); simpl.
    + intros [[= <- <-]|H]; [left; auto|right; right; exact H].
    + intros [H|H]; [right; left; exact H|].
      destruct (IH H) as [H'|H']; [left; exact H'|right; right; exact H'].
Qed.

End Facts.

End ObjFacts.

(** ** Weekly view *)

Module WeeklyFacts.
Import WeeklyView ObjFacts.

Lemma weeklyData_records campaigns :
  weeklyData campaigns = fold_left visit (records campaigns) [].
Proof.
  unfold weeklyData, records. generalize ([] : Obj.t WeekTotals).
  induction campaigns as [|c cs IH]; intros o; simpl; [reflexivity|].
  rewrite fold_left_app. apply IH.
Qed.

(** The text before [" to "] in a week key is the week start, when the week
    start has no space. *)
Lemma starts_with_app sep s : starts_with sep (String.append sep s) = true.
Proof.
  induction sep as [|c sep IH]; simpl; [reflexivity|].
  rewrite Ascii.eqb_refl. exact IH.
Qed.

Lemma split_head_weekKey a b :
  no_space a = true -> split_head " to " (String.append a (String.append " to " b)) = a.
Proof.
  unfold no_space. induction a as [|c a IH]; intros H.
  - reflexivity.
  - cbn [list_ascii_of_string forallb] in H.
    apply andb_true_iff in H. destruct H as [Hc Ha].
    change (split_head " to " (String.append (String c a) (String.append " to " b)))
      with (if starts_with " to " (String c (String.append a (String.append " to " b)))
            then EmptyString
            else String c (split_head " to " (String.append a (String.append " to " b)))).
    replace (starts_with " to " (String c (String.append a (String.append " to " b))))
      with false.
    + f_equal. apply IH. exact Ha.
    + cbn [starts_with]. rewrite Ascii.eqb_sym.
      destruct (Ascii.eqb c " "); [discriminate|reflexivity].
Qed.

Lemma visit_In o w k e :
  labelled o ->
  In (k, e) (visit o w) ->
  (k = weekKey w /\ e.(weekLabel) = weekKey w) \/ In (k, e) o.
Proof.
  intros Hlab. unfold visit.
  destruct (Obj.get (weekKey w) o) as [e0|] eqn:E.
  - rewrite E. intros H. apply In_set in H. destruct H as [[-> ->]|H]; [|right; exact H].
    left. split; [reflexivity|]. simpl. apply Hlab. apply get_In. exact E.
  - rewrite get_set_eq. intros H. apply In_set in H.
    destruct H as [[-> ->]|H]; [left; split; reflexivity|].
    apply In_set in H. destruct H as [[-> ->]|H]; [left; split; reflexivity|right; exact H].
Qed.

Lemma visit_get_self o w : exists e, Obj.get (weekKey w) (visit o w) = Some e.
Proof.
  unfold visit. destruct (Obj.get (weekKey w) o) as [e0|] eqn:E.
  - rewrite E. rewrite get_set_eq. eauto.
  - rewrite get_set_eq. rewrite get_set_eq. eauto.
Qed.

Lemma visit_get_other o w k :
  (exists e, Obj.get k o = Some e) -> exists e, Obj.get k (visit o w) = Some e.
Proof.
  intros He. destruct (String.eqb_spec (weekKey w) k) as [<-|Hne]; [apply visit_get_self|].
  unfold visit. destruct (Obj.get (weekKey w) o) as [e0|] eqn:E.
  - rewrite E. rewrite get_set_ne by exact Hne. exact He.
  - rewrite get_set_eq. rewrite !get_set_ne by exact Hne. exact He.
Qed.

(** The keys of the aggregated object are the keys of the weeks met, and
    every entry is labelled with its key. *)
Lemma fold_visit_keys l :
  let o := fold_left visit l [] in
  labelled o /\
  (forall k e, In (k, e) o -> exists w, In w l /\ k = weekKey w) /\
  (forall w, In w l -> exists e, Obj.get (weekKey w) o = Some e).
Proof.
  induction l as [|w l IH] using rev_ind; simpl.
  - split; [intros k e []|]. split; [intros k e []|intros w []].
  - rewrite fold_left_app. simpl. destruct IH as (Hlab & Hkeys & Hcov).
    split; [|split].
    + intros k e H. destruct (visit_In _ _ _ _ Hlab H) as [[-> Hl]|Hin]; [exact Hl|].
      apply Hlab. exact Hin.
    + intros k e H. destruct (visit_In _ _ _ _ Hlab H) as [[-> _]|Hin].
      * exists w. split; [apply in_or_app; right; left; reflexivity|reflexivity].
      * destruct (Hkeys k e Hin) as (w' & Hw' & ->).
        exists w'. split; [apply in_or_app; left; exact Hw'|reflexivity].
    + intros w' Hw'. apply in_app_or in Hw'. destruct Hw' as [Hw'|[<-|[]]].
      * apply visit_get_other. apply Hcov. exact Hw'.
      * apply visit_get_self.
Qed.

Lemma startOf_entry campaigns k e :
  (forall w, In w (records campaigns) -> no_space w.(Weekly.week_start) = true) ->
  In (k, e) (weeklyData campaigns) ->
  exists w, In w (records campaigns) /\ startOf e = w.(Weekly.week_start).
Proof.
  intros Hns Hin. rewrite weeklyData_records in Hin.
  destruct (fold_visit_keys (records campaigns)) as (Hlab & Hkeys & _).
  destruct (Hkeys k e Hin) as (w & Hw & ->).
  exists w. split; [exact Hw|]. unfold startOf. rewrite (Hlab _ _ Hin).
  apply split_head_weekKey. apply Hns. exact Hw.
Qed.

Lemma StronglySorted_map {A B : Type} (f : A -> B) (R : B -> B -> Prop) l :
  StronglySorted (fun a b => R (f a) (f b)) l -> StronglySorted R (map f l).
Proof.
  induction 1 as [|x l Hs IH Hx]; simpl; constructor; [exact IH|].
  apply List.Forall_forall. intros y Hy. apply in_map_iff in Hy.
  destruct Hy as (z & <- & Hz). revert z Hz. apply List.Forall_forall. exact Hx.
Qed.

Section Sorted.
Variable Date_getTime : string -> number.
Variable campaigns : list Campaign.t.
Hypothesis well_formed :
  forall w, In w (records campaigns) ->
    no_space w.(Weekly.week_start) = true /\
    Num.is_finite (Date_getTime w.(Weekly.week_start)) = true.

Lemma value_In week :
  In week (Obj.values (weeklyData campaigns)) ->
  exists w, In w (records campaigns) /\ startOf week = w.(Weekly.week_start).
Proof.
  unfold Obj.values. intros H. apply in_map_iff in H. destruct H as ([k e] & <- & Hin).
  apply (startOf_entry campaigns k e); [|exact Hin].
  intros w Hw. apply well_formed. exact Hw.
Qed.

Lemma by_week_start_orders :
  orders_by (by_week_start Date_getTime)
    (fun week => Num.val (Date_getTime (startOf week)))
    (Obj.values (weeklyData campaigns)).
Proof.
  intros a b Ha Hb. unfold by_week_start.
  destruct (value_In a Ha) as (wa & Hwa & ->). destruct (value_In b Hb) as (wb & Hwb & ->).
  destruct (well_formed wa Hwa) as [_ Hfa]. destruct (well_formed wb Hwb) as [_ Hfb].
  destruct (Date_getTime (Weekly.week_start wa)) as [ta| | |]; try discriminate.
  destruct (Date_getTime (Weekly.week_start wb)) as [tb| | |]; try discriminate.
  cbn [Num.sub Num.neg Num.add Num.val]. rewrite NumFacts.gt_fin.
  split; intros H.
  - apply (Qplus_lt_l _ _ (- tb)). rewrite Qplus_opp_r. exact H.
  - apply (Qplus_lt_l _ _ (- tb)) in H. rewrite Qplus_opp_r in H. exact H.
Qed.

Lemma sortedWeeks_sorted :
  StronglySorted
    (fun a b => Num.val (Date_getTime (startOf a)) <= Num.val (Date_getTime (startOf b)))
    (sortedWeeks Date_getTime campaigns).
Proof.
  unfold sortedWeeks.
  apply (SortFacts.Array_sort_sorted _ (fun week => Num.val (Date_getTime (startOf week)))).
  apply by_week_start_orders.
Qed.

Lemma sortedWeeks_labels s :
  In s (map startOf (sortedWeeks Date_getTime campaigns)) <->
  exists w, In w (records campaigns) /\ w.(Weekly.week_start) = s.
Proof.
  unfold sortedWeeks. split.
  - intros H. apply in_map_iff in H. destruct H as (week & <- & Hin).
    apply SortFacts.Array_sort_In in Hin.
    destruct (value_In week Hin) as (w & Hw & ->). exists w. split; [exact Hw|reflexivity].
  - intros (w & Hw & <-).
    destruct (fold_visit_keys (records campaigns)) as (_ & _ & Hcov).
    destruct (Hcov w Hw) as (e & He). apply get_In in He.
    rewrite <- weeklyData_records in He.
    destruct (startOf_entry campaigns _ e (fun w' Hw' => proj1 (well_formed w' Hw')) He)
      as (w' & Hw' & Hs).
    apply in_map_iff. exists e. split.
    + unfold startOf. destruct (fold_visit_keys (records campaigns)) as (Hlab & _ & _).
      rewrite <- weeklyData_records in Hlab. rewrite (Hlab _ _ He).
      apply split_head_weekKey. apply well_formed. exact Hw.
    + apply SortFacts.Array_sort_In. unfold Obj.values.
      apply in_map_iff. exists (weekKey w, e). split; [reflexivity|exact He].
Qed.

End Sorted.

End WeeklyFacts.

(** C6. For every dataset whose week starts are dates (strings without a
    space that the date parser of the host accepts), both series of the
    weekly chart are in ascending order of the parsed week start, whatever
    the order of the weeks in the input; their labels are exactly the week
    starts of the input.  Weeks given as 2024-01-08, 2024-01-01, 2024-01-15
    come out as 2024-01-01, 2024-01-08, 2024-01-15. *)
Theorem weekly_series_is_chronological :
  (forall Date_getTime campaigns chart,
     (forall w, In w (WeeklyView.records campaigns) ->
        WeeklyView.no_space w.(Weekly.week_start) = true /\
        Num.is_finite (Date_getTime w.(Weekly.week_start)) = true) ->
     WeeklyView.weeklyChartData Date_getTime (Some campaigns) = Some chart ->
     WeeklyView.ascending Date_getTime chart.(WeeklyView.spendData) /\
     WeeklyView.ascending Date_getTime chart.(WeeklyView.revenueData) /\
     (forall s, In s (map ChartPoint.label chart.(WeeklyView.spendData)) <->
                exists w, In w (WeeklyView.records campaigns) /\ w.(Weekly.week_start) = s) /\
     map ChartPoint.label chart.(WeeklyView.revenueData)
       = map ChartPoint.label chart.(WeeklyView.spendData)) /\
  option_map (fun chart => map ChartPoint.label chart.(WeeklyView.spendData))
    (WeeklyView.weeklyChartData IsoDate.getTime (Some WeeklyView.out_of_order))
    = Some ["2024-01-01"; "2024-01-08"; "2024-01-15"].
Proof.
  split; [|reflexivity].
  intros Date_getTime campaigns chart Hwf [= <-]. cbn [WeeklyView.spendData WeeklyView.revenueData].
  pose proof (WeeklyFacts.sortedWeeks_sorted Date_getTime campaigns Hwf) as Hsorted.
  split; [|split; [|split]].
  - unfold WeeklyView.ascending.
    apply (WeeklyFacts.StronglySorted_map
             (fun week => ChartPoint.mk (WeeklyView.startOf week) week.(WeeklyView.spend))
             (fun a b => Num.val (Date_getTime a.(ChartPoint.label))
                         <= Num.val (Date_getTime b.(ChartPoint.label)))).
    exact Hsorted.
  - unfold WeeklyView.ascending.
    apply (WeeklyFacts.StronglySorted_map
             (fun week => ChartPoint.mk (WeeklyView.startOf week) week.(WeeklyView.revenue))
             (fun a b => Num.val (Date_getTime a.(ChartPoint.label))
                         <= Num.val (Date_getTime b.(ChartPoint.label)))).
    exact Hsorted.
  - intros s. rewrite map_map. cbn [ChartPoint.label].
    apply (WeeklyFacts.sortedWeeks_labels Date_getTime campaigns Hwf).
  - rewrite !map_map. reflexivity.
Qed.

Lemma weekly_series_is_chronological_witness :
  WeeklyView.ascending IsoDate.getTime
    [ChartPoint.mk "2024-01-01" (Fin 100); ChartPoint.mk "2024-01-08" (Fin 200);
     ChartPoint.mk "2024-01-15" (Fin 300)].
Proof.
  refine (proj1 (proj1 weekly_series_is_chronological IsoDate.getTime
                   WeeklyView.out_of_order
                   {| WeeklyView.spendData :=
                        [ChartPoint.mk "2024-01-01" (Fin 100);
                         ChartPoint.mk "2024-01-08" (Fin 200);
                         ChartPoint.mk "2024-01-15" (Fin 300)];
                      WeeklyView.revenueData :=
                        [ChartPoint.mk "2024-01-01" (Fin 300);
                         ChartPoint.mk "2024-01-08" (Fin 400);
                         ChartPoint.mk "2024-01-15" (Fin 500)] |} _ _)).
  - intros w [<-|[<-|[<-|[]]]]; split; reflexivity.
  - vm_compute. reflexivity.
Defined.

(** ** Demographic view *)

Module DemographicFacts.
Import DemographicView ObjFacts.

(** *** Sums of rationals *)



Lemma Qsum_scale (a t : Q) (l : list Q) :
  Qsum (map (fun c => a * (c / t)) l) == a * (Qsum l / t).
Proof.
  induction l as [|c l IH]; simpl.
  - unfold Qdiv. ring.
  - rewrite IH. unfold Qdiv. ring.
Qed.

Lemma Qsum_zero (f : Q -> Q) (l : list Q) :
  (forall c, f c == 0) -> Qsum (map f l) == 0.
Proof.
  intros Hf. induction l as [|c l IH]; simpl; [reflexivity|].
  rewrite IH, Hf. ring.
Qed.


(** *** Objects of numbers *)

Lemma set_set {V : Type} k (v v' : V) o : Obj.set k v (Obj.set k v' o) = Obj.set k v o.
Proof.
  induction o as [|[k0 v0] o IH]; simpl.
  - rewrite String.eqb_refl. reflexivity.
  - destruct (String.eqb k k0) eqn:E; simpl.
    + rewrite String.eqb_refl. reflexivity.
    + rewrite E, IH. reflexivity.
Qed.








(** *** One step of the age-group counter *)


Lemma add_clicks_set age clicks o :
  add_clicks age clicks o = Obj.set age (Num.add (stored age o) clicks) o.
Proof.
  unfold add_clicks, stored. destruct (Obj.get age o) as [v|] eqn:E.
  - destruct (Num.truthy v).
    + rewrite E. reflexivity.
    + rewrite get_set_eq. apply set_set.
  - rewrite get_set_eq. apply set_set.
Qed.

Lemma get_add_clicks_ne age age' clicks o :
  age <> age' -> Obj.get age' (add_clicks age clicks o) = Obj.get age' o.
Proof. intros Hne. rewrite add_clicks_set. apply get_set_ne. exact Hne. Qed.


(** *** The two loops *)








(** *** The age-group counter on finite clicks *)






(** *** Allocation *)





(** *** Sub-records of another gender *)








End DemographicFacts.





